(** * CDP browser provider (src/browser-providers/cdp.ts)

    A shallow embedding of [CDPBrowserProvider], the adapter that connects
    HyperAgent to an already running Chromium through Playwright's
    [chromium.connectOverCDP].

    The provider is a mutable object with four fields; its methods talk to
    the Playwright library and to the console.  Methods are therefore
    written in a state-and-exception monad [Exec]: the state carries the
    receiver object [this] and the outside world (the library's own state
    and the trace of calls made to it), and an abrupt completion carries
    the thrown JavaScript value.  A [throw] does not roll the state back.

    Every [await] is followed to completion: the callers of the provider
    await [start] and [close], so a method runs from entry to settlement
    without another method of the same object running in between. *)

From Stdlib Require Import String Ascii List Bool ZArith Lia DecimalString.
From ExtLib Require Import Structures.Monad Structures.MonadState Structures.MonadExc.
Import ListNotations.
Import MonadNotation.
Local Open Scope string_scope.
Local Open Scope monad_scope.

Set Implicit Arguments.

(** ** JavaScript values and strings *)

Module Js.

(** The values a [catch (error)] clause of the provider can receive:
    [Error] objects (Playwright's [TimeoutError] is one, under another
    [name]) and primitives. *)
Inductive Value : Type :=
| Undefined
| Null
| Boolean (b : bool)
| Str (s : string)
| ErrorObject (name message : string).

(** [new Error(message)] *)
Definition new_Error (message : string) : Value := ErrorObject "Error" message.

(** [v instanceof Error] *)
Definition instanceof_Error (v : Value) : bool :=
  match v with
  | ErrorObject _ _ => true
  | _ => false
  end.

(** [String(v)]; for an [Error] this is [Error.prototype.toString]. *)
Definition String_ (v : Value) : string :=
  match v with
  | Undefined => "undefined"
  | Null => "null"
  | Boolean true => "true"
  | Boolean false => "false"
  | Str s => s
  | ErrorObject "" message => message
  | ErrorObject name "" => name
  | ErrorObject name message => name ++ ": " ++ message
  end.

(** [s.startsWith(search)] *)
Definition startsWith (s search : string) : bool := String.prefix search s.

(** [s.includes(search)] *)
Fixpoint includes (s search : string) : bool :=
  String.prefix search s ||
  match s with
  | EmptyString => false
  | String _ rest => includes rest search
  end.

(** Truthiness of a string-valued property that may be absent. *)
Definition truthy (v : option string) : bool :=
  match v with
  | None => false
  | Some "" => false
  | Some _ => true
  end.

(** The line feed written [\n] in a literal. *)
Definition LF : string := String (ascii_of_nat 10) "".

(** A length interpolated into a template literal. *)
Definition of_length (n : nat) : string := NilZero.string_of_uint (Nat.to_uint n).

End Js.

(** ** Completions and the execution monad *)

Inductive Completion (A : Type) : Type :=
| Normal (a : A)
| Throw (v : Js.Value).
Arguments Normal {A} a.
Arguments Throw {A} v.

Definition Exec (S A : Type) : Type := S -> Completion A * S.

#[global] Instance Monad_Exec {S : Type} : Monad (Exec S) :=
  {| ret := fun _ a s => (Normal a, s);
     bind := fun _ _ c k s =>
       match c s with
       | (Normal a, s') => k a s'
       | (Throw v, s') => (Throw v, s')
       end |}.

#[global] Instance MonadState_Exec {S : Type} : MonadState S (Exec S) :=
  {| get := fun s => (Normal s, s);
     put := fun s' _ => (Normal tt, s') |}.

(** [raise] is [throw]; [catch body handler] is [try { body } catch (e) { handler e }]. *)
#[global] Instance MonadExc_Exec {S : Type} : MonadExc Js.Value (Exec S) :=
  {| raise := fun _ v s => (Throw v, s);
     catch := fun _ body handler s =>
       match body s with
       | (Normal a, s') => (Normal a, s')
       | (Throw v, s') => handler v s'
       end |}.

(** [await c]: the promise [c] is followed until it settles. *)
Definition await {S A : Type} (c : Exec S A) : Exec S A := c.

(** ** The Playwright interface the provider consumes *)

(** A [Browser] object, known by its identity. *)
Inductive Browser : Type := BrowserRef (id : nat).

(** A [BrowserContext] object; only their number is looked at. *)
Inductive BrowserContext : Type := ContextRef (id : nat).

(** [Omit<ConnectOverCDPOptions, "endpointURL">] *)
Record ConnectOverCDPOptions : Type := {
  headers : option (list (string * string));
  slowMo : option Z;
  timeout : option Z
}.

(** The argument object [{ endpointURL: ..., ...options }]. *)
Record ConnectArgs : Type := {
  endpointURL : string;
  rest : ConnectOverCDPOptions
}.

(** Spreading [undefined] adds no property. *)
Definition spread (endpoint : string) (options : option ConnectOverCDPOptions) : ConnectArgs :=
  {| endpointURL := endpoint;
     rest := match options with
             | Some o => o
             | None => {| headers := None; slowMo := None; timeout := None |}
             end |}.

(** The library and the browser behind it, over a state [L] of their own.
    The two asynchronous operations may reject; [contexts] is a
    synchronous getter. *)
Class Playwright (L : Type) : Type := {
  connectOverCDP : ConnectArgs -> L -> Completion Browser * L;
  contexts : Browser -> L -> list BrowserContext;
  Browser_close : Browser -> L -> Completion unit * L
}.

(** What the provider does to the outside, in order. *)
Inductive Event : Type :=
| CallConnectOverCDP (args : ConnectArgs)
| CallContexts (b : Browser)
| CallClose (b : Browser)
| ConsoleLog (args : list string)
| ConsoleError (args : list string).

Definition is_connect (e : Event) : bool :=
  match e with CallConnectOverCDP _ => true | _ => false end.

Definition is_close (e : Event) : bool :=
  match e with CallClose _ => true | _ => false end.

(** Calls that reach the network: connecting and closing. *)
Definition is_network (e : Event) : bool := is_connect e || is_close e.

Record World (L : Type) : Type := {
  remote : L;
  trace : list Event
}.

(** ** The provider object *)

Module CDPBrowserConfig.
(** [wsEndpoint] is [None] when the property is absent at run time. *)
Record t : Type := {
  wsEndpoint : option string;
  options : option ConnectOverCDPOptions;
  debug : option bool
}.
End CDPBrowserConfig.

Record CDPBrowserProvider : Type := {
  wsEndpoint : string;
  options : option ConnectOverCDPOptions;
  session : option Browser;
  debug : bool
}.

(** The receiver of a method call together with the world it runs in. *)
Record Instance (L : Type) : Type := {
  this : CDPBrowserProvider;
  world : World L
}.

(** What [getSession] returns: [Browser | null]. *)
Inductive Nullable (A : Type) : Type :=
| null
| value (a : A).
Arguments null {A}.
Arguments value {A} a.

Section Provider.

Context {L : Type} `{Playwright L}.

(** *** Effects on the world *)

Definition emit (e : Event) : Exec (World L) unit :=
  fun w => (Normal tt, {| remote := remote w; trace := trace w ++ [e] |}).

Definition console_log (args : list string) : Exec (World L) unit :=
  emit (ConsoleLog args).

Definition console_error (args : list string) : Exec (World L) unit :=
  emit (ConsoleError args).

Definition chromium_connectOverCDP (args : ConnectArgs) : Exec (World L) Browser :=
  emit (CallConnectOverCDP args) ;;
  fun w => let (r, l) := connectOverCDP args (remote w) in
           (r, {| remote := l; trace := trace w |}).

Definition browser_contexts (b : Browser) : Exec (World L) (list BrowserContext) :=
  emit (CallContexts b) ;;
  fun w => (Normal (contexts b (remote w)), w).

Definition browser_close (b : Browser) : Exec (World L) unit :=
  emit (CallClose b) ;;
  fun w => let (r, l) := Browser_close b (remote w) in
           (r, {| remote := l; trace := trace w |}).

(** *** Access to [this] from inside a method *)

Definition outside {A : Type} (c : Exec (World L) A) : Exec (Instance L) A :=
  fun i => let (r, w) := c (world i) in (r, {| this := this i; world := w |}).

Definition this_wsEndpoint : Exec (Instance L) string := gets (fun i => wsEndpoint (this i)).
Definition this_options : Exec (Instance L) (option ConnectOverCDPOptions) :=
  gets (fun i => options (this i)).
Definition this_debug : Exec (Instance L) bool := gets (fun i => debug (this i)).
Definition this_session : Exec (Instance L) (option Browser) :=
  gets (fun i => session (this i)).

(** [this.session = b] *)
Definition set_this_session (b : Browser) : Exec (Instance L) unit :=
  i <- get ;;
  put {| this := {| wsEndpoint := wsEndpoint (this i);
                    options := options (this i);
                    session := Some b;
                    debug := debug (this i) |};
         world := world i |}.

Definition when {S : Type} (b : bool) (c : Exec S unit) : Exec S unit :=
  if b then c else ret tt.

(** *** constructor *)

(** Modelled from the spec: the base class [BrowserProvider] of
    [@/types/browser-providers/types] is not among the sources; the
    provider's construction is "pure validation; no I/O", so [super()]
    does nothing to the world. *)
Definition super_ : Exec (World L) unit := ret tt.

(** The default parameter [{ wsEndpoint: "" }]. *)
Definition default_config : CDPBrowserConfig.t :=
  {| CDPBrowserConfig.wsEndpoint := Some "";
     CDPBrowserConfig.options := None;
     CDPBrowserConfig.debug := None |}.

(** [new CDPBrowserProvider(config)]; [None] is a call without argument. *)
Definition constructor (config : option CDPBrowserConfig.t)
  : Exec (World L) CDPBrowserProvider :=
  let config := match config with Some c => c | None => default_config end in
  super_ ;;
  if negb (Js.truthy (CDPBrowserConfig.wsEndpoint config)) then
    raise (Js.new_Error "CDP wsEndpoint is required but was not provided")
  else
    ret {| wsEndpoint := match CDPBrowserConfig.wsEndpoint config with
                         | Some e => e
                         | None => ""
                         end;
           options := CDPBrowserConfig.options config;
           session := None;
           debug := match CDPBrowserConfig.debug config with
                    | Some d => d
                    | None => false
                    end |}.

(** *** start *)

Definition format_error (endpoint : string) : Js.Value :=
  Js.new_Error ("Invalid CDP WebSocket endpoint format: " ++ endpoint
                ++ ". Must start with ws:// or wss://").

Definition connection_error (endpoint errorMessage : string) : Js.Value :=
  Js.new_Error ("Failed to connect to CDP WebSocket endpoint: " ++ endpoint
                ++ ". " ++ errorMessage).

(** [error instanceof Error ? error.message : String(error)] *)
Definition errorMessage_of (error : Js.Value) : string :=
  if Js.instanceof_Error error then
    match error with
    | Js.ErrorObject _ message => message
    | _ => ""
    end
  else Js.String_ error.

Definition start : Exec (Instance L) (option Browser) :=
  debug <- this_debug ;;
  when debug
    (endpoint <- this_wsEndpoint ;;
     outside (console_log [Js.LF ++ "Connecting to CDP WebSocket endpoint:"; endpoint])) ;;
  endpoint <- this_wsEndpoint ;;
  if negb (Js.startsWith endpoint "ws://") && negb (Js.startsWith endpoint "wss://") then
    raise (format_error endpoint)
  else
    catch
      (endpoint <- this_wsEndpoint ;;
       options <- this_options ;;
       browser <- await (outside (chromium_connectOverCDP (spread endpoint options))) ;;
       set_this_session browser ;;
       debug <- this_debug ;;
       when debug
         (outside (console_log ["Successfully connected to CDP browser" ++ Js.LF]) ;;
          contexts <- outside (browser_contexts browser) ;;
          outside (console_log ["Connected browser has "
                                ++ Js.of_length (length contexts) ++ " context(s)"])) ;;
       this_session)
      (fun error =>
         let errorMessage := errorMessage_of error in
         debug <- this_debug ;;
         when debug
           (outside (console_error ["Failed to connect to CDP browser:"; errorMessage]) ;;
            outside (console_error
              ["Make sure Chrome/Chromium is running with --remote-debugging-port flag"]) ;;
            outside (console_error
              ["Example: chrome --remote-debugging-port=9222 --remote-debugging-address=0.0.0.0"])) ;;
         endpoint <- this_wsEndpoint ;;
         raise (connection_error endpoint errorMessage)).

(** *** close *)

Definition close : Exec (Instance L) unit :=
  debug <- this_debug ;;
  session <- this_session ;;
  when (debug && match session with Some _ => true | None => false end)
    (outside (console_log ["Closing CDP browser connection"])) ;;
  session <- this_session ;;
  match session with
  | Some browser => await (outside (browser_close browser))
  | None => await (ret tt)
  end.

(** *** getSession *)

Definition getSession : Exec (Instance L) (Nullable Browser) :=
  session <- this_session ;;
  match session with
  | None => ret null
  | Some browser => ret (value browser)
  end.

End Provider.

(** ** Vocabulary of the statements *)

Section Vocabulary.

Context {L : Type} `{Playwright L}.

(** The endpoint passes the scheme test of [start]. *)
Definition scheme_ok (endpoint : string) : bool :=
  Js.startsWith endpoint "ws://" || Js.startsWith endpoint "wss://".

(** The argument object [start] hands to [connectOverCDP]. *)
Definition connect_args (p : CDPBrowserProvider) : ConnectArgs :=
  spread (wsEndpoint p) (options p).

(** The provider [p] after [this.session = b]. *)
Definition with_session (p : CDPBrowserProvider) (b : Browser) : CDPBrowserProvider :=
  {| wsEndpoint := wsEndpoint p; options := options p; session := Some b; debug := debug p |}.

(** The instance [i] after the library moved to [l] and [es] was appended
    to the trace, [this] being [p]. *)
Definition after (i : Instance L) (p : CDPBrowserProvider) (l : L) (es : list Event)
  : Instance L :=
  {| this := p; world := {| remote := l; trace := trace (world i) ++ es |} |}.

(** Console lines of a provider in debug mode. *)
Definition banner (p : CDPBrowserProvider) : list Event :=
  if debug p then
    [ConsoleLog [Js.LF ++ "Connecting to CDP WebSocket endpoint:"; wsEndpoint p]]
  else [].

Definition connected_lines (p : CDPBrowserProvider) (b : Browser) (l : L) : list Event :=
  if debug p then
    [ConsoleLog ["Successfully connected to CDP browser" ++ Js.LF];
     CallContexts b;
     ConsoleLog ["Connected browser has " ++ Js.of_length (length (contexts b l))
                 ++ " context(s)"]]
  else [].

Definition failure_lines (p : CDPBrowserProvider) (errorMessage : string) : list Event :=
  if debug p then
    [ConsoleError ["Failed to connect to CDP browser:"; errorMessage];
     ConsoleError ["Make sure Chrome/Chromium is running with --remote-debugging-port flag"];
     ConsoleError
       ["Example: chrome --remote-debugging-port=9222 --remote-debugging-address=0.0.0.0"]]
  else [].

Definition closing_lines (p : CDPBrowserProvider) : list Event :=
  if debug p then [ConsoleLog ["Closing CDP browser connection"]] else [].

(** Number of calls to [connectOverCDP] in a trace. *)
Definition connection_attempts (t : list Event) : nat := length (filter is_connect t).

(** The error thrown by the constructor. *)
Definition configuration_error : Js.Value :=
  Js.new_Error "CDP wsEndpoint is required but was not provided".

(** The endpoint of a constructor argument is empty or missing. *)
Definition endpoint_missing (config : option CDPBrowserConfig.t) : bool :=
  match config with
  | None => true
  | Some c =>
      match CDPBrowserConfig.wsEndpoint c with
      | None => true
      | Some e => String.eqb e ""
      end
  end.

(** Providers on which no [start] has succeeded: a freshly constructed
    one, and whatever a failed [start], a [close] or a [getSession] makes
    of such a provider, in any world. *)
Inductive Unstarted : CDPBrowserProvider -> Prop :=
| Unstarted_new config (w w' : World L) p :
    constructor config w = (Normal p, w') ->
    Unstarted p
| Unstarted_start p (w : World L) v i' :
    Unstarted p ->
    start {| this := p; world := w |} = (Throw v, i') ->
    Unstarted (this i')
| Unstarted_close p (w : World L) r i' :
    Unstarted p ->
    close {| this := p; world := w |} = (r, i') ->
    Unstarted (this i')
| Unstarted_getSession p (w : World L) r i' :
    Unstarted p ->
    getSession {| this := p; world := w |} = (r, i') ->
    Unstarted (this i').

(** The three ways [start] can go. *)
Inductive start_case (i : Instance L) : Completion (option Browser) * Instance L -> Prop :=
| start_case_format :
    scheme_ok (wsEndpoint (this i)) = false ->
    start_case i (Throw (format_error (wsEndpoint (this i))),
                  after i (this i) (remote (world i)) (banner (this i)))
| start_case_connected b l' :
    scheme_ok (wsEndpoint (this i)) = true ->
    connectOverCDP (connect_args (this i)) (remote (world i)) = (Normal b, l') ->
    start_case i (Normal (Some b),
                  after i (with_session (this i) b) l'
                    (banner (this i) ++ [CallConnectOverCDP (connect_args (this i))]
                     ++ connected_lines (this i) b l'))
| start_case_refused v l' :
    scheme_ok (wsEndpoint (this i)) = true ->
    connectOverCDP (connect_args (this i)) (remote (world i)) = (Throw v, l') ->
    start_case i (Throw (connection_error (wsEndpoint (this i)) (errorMessage_of v)),
                  after i (this i) l'
                    (banner (this i) ++ [CallConnectOverCDP (connect_args (this i))]
                     ++ failure_lines (this i) (errorMessage_of v))).

End Vocabulary.

(** ** A scripted library for concrete runs

    One browser process listens on [Lab.listening] while it is [up]; every
    other endpoint refuses the connection.  A session can be closed once. *)

Module Lab.

Record t : Type := {
  up : bool;
  served : nat;
  live : list nat
}.

Definition listening : string := "ws://localhost:9222/devtools/browser".

Definition refused : Js.Value :=
  Js.ErrorObject "Error" "connect ECONNREFUSED 127.0.0.1:9333".

Definition gone : Js.Value :=
  Js.ErrorObject "Error" "Target page, context or browser has been closed".

Definition connect (args : ConnectArgs) (l : t) : Completion Browser * t :=
  if String.eqb (endpointURL args) listening && up l then
    (Normal (BrowserRef (served l)),
     {| up := true; served := S (served l); live := served l :: live l |})
  else (Throw refused, l).

Definition pages (b : Browser) (l : t) : list BrowserContext := [ContextRef 0].

Definition shut (b : Browser) (l : t) : Completion unit * t :=
  match b with
  | BrowserRef n =>
      if existsb (Nat.eqb n) (live l) then
        (Normal tt,
         {| up := up l; served := served l;
            live := filter (fun m => negb (Nat.eqb n m)) (live l) |})
      else (Throw gone, l)
  end.

#[global] Instance playwright : Playwright t :=
  {| connectOverCDP := connect; contexts := pages; Browser_close := shut |}.

Definition boot : World t :=
  {| remote := {| up := true; served := 0; live := [] |}; trace := [] |}.

(** A configuration with the given endpoint and debug flag and no options. *)
Definition config (endpoint : string) (dbg : bool) : option CDPBrowserConfig.t :=
  Some {| CDPBrowserConfig.wsEndpoint := Some endpoint;
          CDPBrowserConfig.options := None;
          CDPBrowserConfig.debug := Some dbg |}.

(** The provider the constructor makes of [config endpoint dbg]. *)
Definition provider (endpoint : string) (dbg : bool) : CDPBrowserProvider :=
  {| wsEndpoint := endpoint; options := None; session := None; debug := dbg |}.

Definition fresh (endpoint : string) (dbg : bool) : Instance t :=
  {| this := provider endpoint dbg; world := boot |}.

(** The browser process exits behind the provider's back. *)
Definition power_off (i : Instance t) : Instance t :=
  {| this := this i;
     world := {| remote := {| up := false; served := served (remote (world i)); live := [] |};
                 trace := trace (world i) |} |}.

End Lab.

(** ** Vocabulary of the further statements *)

Definition is_console (e : Event) : bool :=
  match e with
  | ConsoleLog _ | ConsoleError _ => true
  | _ => false
  end.

(** [error instanceof Error && error.message.includes("connect")], the
    test by which the example scripts decide to print their connection
    hints (examples/browser-providers/cdp.ts, line 96). *)
Definition connection_hint (error : Js.Value) : bool :=
  match error with
  | Js.ErrorObject _ message => Js.includes message "connect"
  | _ => false
  end.

(** The calls of [connectOverCDP] in a trace, in order. *)
Definition dialled (t : list Event) : list Event := filter is_connect t.

(** The calls of [close] on a browser in a trace, in order. *)
Definition closed (t : list Event) : list Event := filter is_close t.

(** Text appended to a string does not create an occurrence of [t] when no
    tail of [t] begins the appended text. *)
Fixpoint no_overlap (t post : string) : bool :=
  match t with
  | EmptyString => true
  | String _ t' => negb (String.prefix t post) && no_overlap t' post
  end.

Section Lifetime.

Context {L : Type} `{Playwright L}.

(** What becomes of a provider [p0] under any sequence of method calls,
    each in a world of its own and whatever its outcome. *)
Inductive Reachable (p0 : CDPBrowserProvider) : CDPBrowserProvider -> Prop :=
| Reachable_here : Reachable p0 p0
| Reachable_start p (w : World L) r i' :
    Reachable p0 p ->
    start {| this := p; world := w |} = (r, i') ->
    Reachable p0 (this i')
| Reachable_close p (w : World L) r i' :
    Reachable p0 p ->
    close {| this := p; world := w |} = (r, i') ->
    Reachable p0 (this i')
| Reachable_getSession p (w : World L) r i' :
    Reachable p0 p ->
    getSession {| this := p; world := w |} = (r, i') ->
    Reachable p0 (this i').

(** The events [start] adds to the trace. *)
Definition start_events (i : Instance L) : list Event :=
  (banner (this i) ++
   if scheme_ok (wsEndpoint (this i)) then
     CallConnectOverCDP (connect_args (this i)) ::
     match fst (connectOverCDP (connect_args (this i)) (remote (world i))) with
     | Normal b =>
         connected_lines (this i) b
           (snd (connectOverCDP (connect_args (this i)) (remote (world i))))
     | Throw v => failure_lines (this i) (errorMessage_of v)
     end
   else [])%list.

End Lifetime.

(** ** The connectivity tester
    (examples/browser-providers/test-cdp-connection.ts, [testCDPConnectivity])

    The tester drives Playwright directly.  Besides the three operations
    the provider uses it opens a context and a page; these calls act on
    the library's state and are not entered in the trace. *)

Inductive Page : Type := PageRef (id : nat).

Class PlaywrightPages (L : Type) : Type := {
  newContext : Browser -> L -> Completion BrowserContext * L;
  newPage : BrowserContext -> L -> Completion Page * L;
  Page_goto : Page -> string -> L -> Completion unit * L;
  Page_title : Page -> L -> Completion string * L;
  BrowserContext_close : BrowserContext -> L -> Completion unit * L
}.

Section Tester.

Context {L : Type} `{Playwright L} `{PlaywrightPages L}.

(** A call into the library that leaves no mark in the trace. *)
Definition call {A : Type} (f : L -> Completion A * L) : Exec (World L) A :=
  fun w => let (r, l) := f (remote w) in (r, {| remote := l; trace := trace w |}).

(** The double quote inside a template literal. *)
Definition DQ : string := String (ascii_of_nat 34) "".

(** [{ endpointURL: endpoint, timeout: 5000 }] *)
Definition probe_args (endpoint : string) : ConnectArgs :=
  {| endpointURL := endpoint;
     rest := {| headers := None; slowMo := None; timeout := Some 5000%Z |} |}.

(** The body of the [try] block, up to its [return endpoint]. *)
Definition probe (endpoint : string) : Exec (World L) unit :=
  browser <- await (chromium_connectOverCDP (probe_args endpoint)) ;;
  console_log ["✅ SUCCESS: Connected to " ++ endpoint] ;;
  contexts <- browser_contexts browser ;;
  console_log ["   Found " ++ Js.of_length (length contexts) ++ " browser context(s)"] ;;
  (if Nat.eqb (length contexts) 0 then
     context <- await (call (newContext browser)) ;;
     page <- await (call (newPage context)) ;;
     await (call (Page_goto page "data:text/html,<h1>CDP Test</h1>")) ;;
     title <- await (call (Page_title page)) ;;
     console_log ["   Page title: " ++ DQ ++ title ++ DQ] ;;
     await (call (BrowserContext_close context))
   else
     console_log ["   Using existing context"]) ;;
  await (browser_close browser) ;;
  console_log ["   Connection closed cleanly" ++ Js.LF].

(** The [catch] clause of the loop body. *)
Definition report_failure (error : Js.Value) : Exec (World L) unit :=
  let errorMessage := errorMessage_of error in
  console_log ["❌ FAILED: " ++ errorMessage ++ Js.LF].

(** The [try] statement of the loop body; it answers [true] when the
    [try] block reached its [return endpoint], [false] when the [catch]
    clause ran and the loop goes on. *)
Definition attempt (endpoint : string) : Exec (World L) bool :=
  catch (probe endpoint ;; ret true)
        (fun error => report_failure error ;; ret false).

(** [for (const endpoint of endpoints) { ... }  return null;] *)
Fixpoint try_endpoints (endpoints : list string) : Exec (World L) (Nullable string) :=
  match endpoints with
  | [] => ret null
  | endpoint :: others =>
      console_log ["Testing: " ++ endpoint] ;;
      returned <- attempt endpoint ;;
      if returned : bool then ret (value endpoint) else try_endpoints others
  end.

(** The call of [connectOverCDP] a probe of [endpoint] makes. *)
Definition dial (endpoint : string) : Event := CallConnectOverCDP (probe_args endpoint).

Definition endpoints : list string :=
  ["ws://localhost:9222/devtools/browser"; "ws://localhost:9222"].

Definition testCDPConnectivity : Exec (World L) (Nullable string) :=
  console_log ["🔍 Testing CDP connectivity without HyperAgent..." ++ Js.LF] ;;
  try_endpoints endpoints.

End Tester.

(** ** A second scripted library, for the tester

    A browser that listens on one endpoint only and starts without any
    context; creating one is allowed or not. *)

Module Rig.

Record t : Type := {
  accepts : string;
  sandbox : bool;
  handed : nat
}.

Definition refused : Js.Value :=
  Js.ErrorObject "Error" "connect ECONNREFUSED 127.0.0.1:9222".

Definition forbidden : Js.Value :=
  Js.ErrorObject "Error" "Protocol error (Target.createBrowserContext): Not allowed".

Definition connect (args : ConnectArgs) (l : t) : Completion Browser * t :=
  if String.eqb (endpointURL args) (accepts l) then
    (Normal (BrowserRef (handed l)),
     {| accepts := accepts l; sandbox := sandbox l; handed := S (handed l) |})
  else (Throw refused, l).

Definition playwright : Playwright t :=
  {| connectOverCDP := connect;
     contexts := fun _ _ => [];
     Browser_close := fun _ l => (Normal tt, l) |}.

Definition pages : PlaywrightPages t :=
  {| newContext := fun _ l =>
       if sandbox l then (Normal (ContextRef 0), l) else (Throw forbidden, l);
     newPage := fun _ l => (Normal (PageRef 0), l);
     Page_goto := fun _ _ l => (Normal tt, l);
     Page_title := fun _ l => (Normal "", l);
     BrowserContext_close := fun _ l => (Normal tt, l) |}.

Definition boot (endpoint : string) (allowed : bool) : World t :=
  {| remote := {| accepts := endpoint; sandbox := allowed; handed := 0 |}; trace := [] |}.

End Rig.

(** ** Running the methods *)

#[global] Arguments Js.startsWith : simpl never.

Ltac exec :=
  unfold start, close, getSession, constructor, this_debug, this_wsEndpoint,
    this_options, this_session, set_this_session, gets, when, await, outside,
    chromium_connectOverCDP, browser_contexts, browser_close, console_log,
    console_error, emit, super_;
  cbn.

Ltac tidy_trace :=
  repeat rewrite <- app_assoc; cbn [app]; repeat rewrite app_nil_r.

Section Runs.

Context {L : Type} `{Playwright L}.

Lemma scheme_test (endpoint : string) :
  negb (Js.startsWith endpoint "ws://") && negb (Js.startsWith endpoint "wss://")
  = negb (scheme_ok endpoint).
Proof. unfold scheme_ok. now rewrite negb_orb. Qed.

Lemma after_nothing (i : Instance L) : after i (this i) (remote (world i)) [] = i.
Proof. destruct i as [p [l t]]. unfold after. cbn. now rewrite app_nil_r. Qed.

(** [start] on an endpoint without the scheme: thrown before the [try]. *)
Lemma start_bad_scheme (i : Instance L) :
  scheme_ok (wsEndpoint (this i)) = false ->
  start i = (Throw (format_error (wsEndpoint (this i))),
             after i (this i) (remote (world i)) (banner (this i))).
Proof.
  intros Hs. destruct i as [[ep o s d] [l t]]. cbn in Hs.
  unfold after, banner. exec.
  destruct d; cbn; rewrite scheme_test, Hs; cbn; tidy_trace; reflexivity.
Qed.

(** [start] when [connectOverCDP] resolves. *)
Lemma start_connected (i : Instance L) (b : Browser) (l' : L) :
  scheme_ok (wsEndpoint (this i)) = true ->
  connectOverCDP (connect_args (this i)) (remote (world i)) = (Normal b, l') ->
  start i = (Normal (Some b),
             after i (with_session (this i) b) l'
               (banner (this i) ++ [CallConnectOverCDP (connect_args (this i))]
                ++ connected_lines (this i) b l')).
Proof.
  intros Hs Hc. destruct i as [[ep o s d] [l t]]. cbn in Hs, Hc.
  unfold connect_args in *. cbn in Hc.
  unfold after, banner, connected_lines, with_session. exec.
  destruct d; cbn; rewrite scheme_test, Hs; cbn; rewrite Hc; cbn; tidy_trace; reflexivity.
Qed.

(** [start] when [connectOverCDP] rejects. *)
Lemma start_refused (i : Instance L) (v : Js.Value) (l' : L) :
  scheme_ok (wsEndpoint (this i)) = true ->
  connectOverCDP (connect_args (this i)) (remote (world i)) = (Throw v, l') ->
  start i = (Throw (connection_error (wsEndpoint (this i)) (errorMessage_of v)),
             after i (this i) l'
               (banner (this i) ++ [CallConnectOverCDP (connect_args (this i))]
                ++ failure_lines (this i) (errorMessage_of v))).
Proof.
  intros Hs Hc. destruct i as [[ep o s d] [l t]]. cbn in Hs, Hc.
  unfold connect_args in *. cbn in Hc.
  unfold after, banner, failure_lines. exec.
  destruct d; cbn; rewrite scheme_test, Hs; cbn; rewrite Hc; cbn; tidy_trace; reflexivity.
Qed.

Lemma start_cases (i : Instance L) : start_case i (start i).
Proof.
  destruct (scheme_ok (wsEndpoint (this i))) eqn:Hs.
  - destruct (connectOverCDP (connect_args (this i)) (remote (world i))) as [[b | v] l'] eqn:Hc.
    + rewrite (start_connected i Hs Hc). now constructor.
    + rewrite (start_refused i Hs Hc). now constructor.
  - rewrite (start_bad_scheme i Hs). now constructor.
Qed.

(** [close] without a session: nothing happens. *)
Lemma close_idle (i : Instance L) :
  session (this i) = None -> close i = (Normal tt, i).
Proof.
  intros Hn. destruct i as [[ep o s d] [l t]]. cbn in Hn. subst s.
  exec. rewrite andb_false_r. reflexivity.
Qed.

(** [close] with a session: the library's [close] decides. *)
Lemma close_session (i : Instance L) (b : Browser) :
  session (this i) = Some b ->
  close i = (fst (Browser_close b (remote (world i))),
             after i (this i) (snd (Browser_close b (remote (world i))))
               (closing_lines (this i) ++ [CallClose b])).
Proof.
  intros Hb. destruct i as [[ep o s d] [l t]]. cbn in Hb. subst s.
  unfold after, closing_lines. exec.
  destruct d; cbn; destruct (Browser_close b l) as [r l']; cbn; tidy_trace; reflexivity.
Qed.

(** [close] never assigns a field. *)
Lemma close_keeps_this (i : Instance L) : this (snd (close i)) = this i.
Proof.
  destruct (session (this i)) as [b |] eqn:Hs.
  - now rewrite (close_session i Hs).
  - now rewrite (close_idle i Hs).
Qed.

Lemma getSession_run (i : Instance L) :
  getSession i = (Normal match session (this i) with
                         | Some b => value b
                         | None => null
                         end, i).
Proof. destruct i as [[ep o [b |] d] w]; reflexivity. Qed.

Lemma constructor_run (config : option CDPBrowserConfig.t) (w : World L) :
  constructor config w =
  (if endpoint_missing config then Throw configuration_error
   else
     let c := match config with Some c => c | None => default_config end in
     Normal {| wsEndpoint := match CDPBrowserConfig.wsEndpoint c with
                             | Some e => e
                             | None => ""
                             end;
               options := CDPBrowserConfig.options c;
               session := None;
               debug := match CDPBrowserConfig.debug c with
                        | Some d => d
                        | None => false
                        end |},
   w).
Proof.
  destruct config as [[[[| a e] |] o d] |]; reflexivity.
Qed.

(** A constructed provider has no session. *)
Lemma constructor_no_session (config : option CDPBrowserConfig.t) (w w' : World L)
      (p : CDPBrowserProvider) :
  constructor config w = (Normal p, w') -> session p = None.
Proof.
  rewrite constructor_run. destruct (endpoint_missing config); [discriminate |].
  intros E. injection E as <- _. reflexivity.
Qed.

(** A [start] that throws leaves the fields of the provider alone. *)
Lemma start_throw_keeps_this (i i' : Instance L) (v : Js.Value) :
  start i = (Throw v, i') -> this i' = this i.
Proof.
  intros E. destruct (start_cases i); inversion E; reflexivity.
Qed.

Lemma Unstarted_no_session (p : CDPBrowserProvider) : Unstarted p -> session p = None.
Proof.
  induction 1 as [config w w' p Hc | p w v i' _ IH Hs | p w r i' _ IH Hc | p w r i' _ IH Hg].
  - exact (constructor_no_session _ _ Hc).
  - now rewrite (start_throw_keeps_this _ Hs).
  - replace i' with (snd (close {| this := p; world := w |})) by now rewrite Hc.
    now rewrite close_keeps_this.
  - rewrite getSession_run in Hg. injection Hg as _ <-. exact IH.
Qed.

(** ** Strings *)

Lemma prefix_app (s t : string) : String.prefix s (s ++ t) = true.
Proof.
  induction s as [| a s IH]; cbn.
  - now destruct t.
  - destruct (Ascii.ascii_dec a a) as [_ | N]; [exact IH | now elim N].
Qed.

Lemma prefix_refl (s : string) : String.prefix s s = true.
Proof.
  induction s as [| a s IH]; cbn; [reflexivity |].
  destruct (Ascii.ascii_dec a a) as [_ | N]; [exact IH | now elim N].
Qed.

Lemma includes_of_prefix (s t : string) :
  String.prefix t s = true -> Js.includes s t = true.
Proof. intros Hp. destruct s; cbn [Js.includes]; rewrite Hp; reflexivity. Qed.

Lemma includes_skip (pre s t : string) :
  Js.includes s t = true -> Js.includes (pre ++ s) t = true.
Proof.
  intros Hi. induction pre as [| a pre IH]; cbn [append]; [exact Hi |].
  cbn [Js.includes]. rewrite IH. apply orb_true_r.
Qed.

Lemma includes_infix (pre s post : string) : Js.includes (pre ++ s ++ post) s = true.
Proof. apply includes_skip, includes_of_prefix, prefix_app. Qed.

Lemma includes_suffix (pre mid s : string) : Js.includes (pre ++ mid ++ s) s = true.
Proof. do 2 apply includes_skip. apply includes_of_prefix, prefix_refl. Qed.

(** ** Counting connection attempts *)

Lemma connection_attempts_app (t u : list Event) :
  connection_attempts (t ++ u) = connection_attempts t + connection_attempts u.
Proof. unfold connection_attempts. now rewrite filter_app, length_app. Qed.

Lemma banner_quiet (p : CDPBrowserProvider) : connection_attempts (banner p) = 0.
Proof. unfold banner. now destruct (debug p). Qed.

Lemma connected_lines_quiet (p : CDPBrowserProvider) (b : Browser) (l : L) :
  connection_attempts (connected_lines p b l) = 0.
Proof. unfold connected_lines. now destruct (debug p). Qed.

Lemma failure_lines_quiet (p : CDPBrowserProvider) (m : string) :
  connection_attempts (failure_lines p m) = 0.
Proof. unfold failure_lines. now destruct (debug p). Qed.

(** With the scheme in place, [start] calls [connectOverCDP] exactly once,
    whatever the state of the session field. *)
Lemma start_attempts_once (i : Instance L) :
  scheme_ok (wsEndpoint (this i)) = true ->
  connection_attempts (trace (world (snd (start i))))
  = S (connection_attempts (trace (world i))).
Proof.
  intros Hs. destruct (start_cases i) as [Hn | b l' _ _ | v l' _ _]; [congruence | |];
    cbn [snd after world trace]; rewrite !connection_attempts_app;
    rewrite banner_quiet; cbn [connection_attempts filter is_connect length app];
    [rewrite connected_lines_quiet | rewrite failure_lines_quiet];
    unfold connection_attempts at 2; cbn [filter is_connect length];
    rewrite Nat.add_0_r, Nat.add_1_r; reflexivity.
Qed.

(** [start] never assigns [wsEndpoint]. *)
Lemma start_keeps_endpoint (i : Instance L) :
  wsEndpoint (this (snd (start i))) = wsEndpoint (this i).
Proof. destruct (start_cases i); reflexivity. Qed.

(** A [start] that returns has connected, stored the handle and returned it. *)
Lemma start_normal_inv (i i' : Instance L) (r : option Browser) :
  start i = (Normal r, i') ->
  exists b l', scheme_ok (wsEndpoint (this i)) = true /\
    connectOverCDP (connect_args (this i)) (remote (world i)) = (Normal b, l') /\
    r = Some b /\ this i' = with_session (this i) b.
Proof.
  intros E. destruct (start_cases i) as [Hn | b l' Hs Hc | v l' Hs Hc]; inversion E.
  exists b, l'. repeat split; assumption.
Qed.

End Runs.

(** ** The provider's contract *)

(** C1. With the scheme in place and [connectOverCDP] resolving to a
    handle [b], [start] returns normally with [b], has stored [b] in the
    session field, and the next [getSession] returns that very [b]. *)
Theorem start_stores_and_returns_session {L : Type} `{Playwright L}
        (i : Instance L) (b : Browser) (l' : L) :
  scheme_ok (wsEndpoint (this i)) = true ->
  connectOverCDP (connect_args (this i)) (remote (world i)) = (Normal b, l') ->
  exists i',
    start i = (Normal (Some b), i') /\
    session (this i') = Some b /\
    getSession i' = (Normal (value b), i').
Proof.
  intros Hs Hc. eexists. split; [exact (start_connected i Hs Hc) |].
  split; [reflexivity |]. now rewrite getSession_run.
Qed.

Lemma start_stores_and_returns_session_witness :
  constructor (Lab.config Lab.listening true) Lab.boot
    = (Normal (this (Lab.fresh Lab.listening true)), Lab.boot) /\
  exists i',
    start (Lab.fresh Lab.listening true) = (Normal (Some (BrowserRef 0)), i') /\
    session (this i') = Some (BrowserRef 0) /\
    getSession i' = (Normal (value (BrowserRef 0)), i').
Proof.
  split; [reflexivity |].
  apply (start_stores_and_returns_session (Lab.fresh Lab.listening true)
           (b := BrowserRef 0)
           (l' := {| Lab.up := true; Lab.served := 1; Lab.live := [0] |}));
    reflexivity.
Defined.

(** C2. With the scheme in place and [connectOverCDP] rejecting with [v],
    [start] throws an [Error] whose message is
    "Failed to connect to CDP WebSocket endpoint: <endpoint>. <cause>";
    the message contains the endpoint and the cause, and the cause is the
    [message] of [v] when [v] is an [Error]. *)
Theorem start_reports_connection_failure {L : Type} `{Playwright L}
        (i : Instance L) (v : Js.Value) (l' : L) :
  scheme_ok (wsEndpoint (this i)) = true ->
  connectOverCDP (connect_args (this i)) (remote (world i)) = (Throw v, l') ->
  exists message i',
    start i = (Throw (Js.new_Error message), i') /\
    message = "Failed to connect to CDP WebSocket endpoint: "
              ++ wsEndpoint (this i) ++ ". " ++ errorMessage_of v /\
    Js.includes message (wsEndpoint (this i)) = true /\
    Js.includes message (errorMessage_of v) = true /\
    (forall name original, v = Js.ErrorObject name original ->
                           Js.includes message original = true).
Proof.
  intros Hs Hc. do 2 eexists.
  split; [exact (start_refused i Hs Hc) |].
  split; [reflexivity |].
  split; [apply includes_infix |].
  split.
  - apply (includes_suffix ("Failed to connect to CDP WebSocket endpoint: "
                            ++ wsEndpoint (this i)) ". ").
  - intros name original ->.
    apply (includes_suffix ("Failed to connect to CDP WebSocket endpoint: "
                            ++ wsEndpoint (this i)) ". ").
Qed.

Lemma start_reports_connection_failure_witness :
  scheme_ok "ws://localhost:9333" = true /\
  exists message i',
    start (Lab.fresh "ws://localhost:9333" false)
      = (Throw (Js.new_Error message), i') /\
    message = "Failed to connect to CDP WebSocket endpoint: "
              ++ "ws://localhost:9333" ++ ". " ++ "connect ECONNREFUSED 127.0.0.1:9333" /\
    Js.includes message "ws://localhost:9333" = true /\
    Js.includes message "connect ECONNREFUSED 127.0.0.1:9333" = true /\
    (forall name original, Lab.refused = Js.ErrorObject name original ->
                           Js.includes message original = true).
Proof.
  split; [reflexivity |].
  apply (start_reports_connection_failure (Lab.fresh "ws://localhost:9333" false)
           (v := Lab.refused) (l' := remote Lab.boot)); reflexivity.
Defined.

(** C3. When the endpoint begins with neither [ws://] nor [wss://],
    [start] throws the format error; the provider's fields and the
    library's state are as before, the trace has grown by console lines
    only, and [connectOverCDP] has not been called. *)
Theorem start_rejects_bad_scheme {L : Type} `{Playwright L} (i : Instance L) :
  Js.startsWith (wsEndpoint (this i)) "ws://" = false ->
  Js.startsWith (wsEndpoint (this i)) "wss://" = false ->
  exists i' lines,
    start i = (Throw (Js.new_Error ("Invalid CDP WebSocket endpoint format: "
                                    ++ wsEndpoint (this i)
                                    ++ ". Must start with ws:// or wss://")), i') /\
    this i' = this i /\
    remote (world i') = remote (world i) /\
    trace (world i') = (trace (world i) ++ lines)%list /\
    existsb is_network lines = false /\
    connection_attempts (trace (world i')) = connection_attempts (trace (world i)).
Proof.
  intros H1 H2.
  assert (Hs : scheme_ok (wsEndpoint (this i)) = false)
    by (unfold scheme_ok; now rewrite H1, H2).
  exists (after i (this i) (remote (world i)) (banner (this i))), (banner (this i)).
  split; [exact (start_bad_scheme i Hs) |].
  repeat split.
  - unfold banner. now destruct (debug (this i)).
  - cbn [after world trace]. rewrite connection_attempts_app, banner_quiet. apply Nat.add_0_r.
Qed.

Lemma start_rejects_bad_scheme_witness :
  Js.startsWith "http://localhost:9222" "ws://" = false /\
  Js.startsWith "http://localhost:9222" "wss://" = false /\
  exists i' lines,
    start (Lab.fresh "http://localhost:9222" true)
      = (Throw (Js.new_Error ("Invalid CDP WebSocket endpoint format: "
                              ++ "http://localhost:9222"
                              ++ ". Must start with ws:// or wss://")), i') /\
    this i' = Lab.provider "http://localhost:9222" true /\
    remote (world i') = remote Lab.boot /\
    trace (world i') = ([] ++ lines)%list /\
    existsb is_network lines = false /\
    connection_attempts (trace (world i')) = 0.
Proof.
  split; [reflexivity |]. split; [reflexivity |].
  apply (start_rejects_bad_scheme (Lab.fresh "http://localhost:9222" true)); reflexivity.
Defined.

(** C4. When the configuration's endpoint is empty or missing -- no
    argument at all, the property absent, or the empty string -- the
    constructor throws the configuration error and leaves the world as it
    was; and whatever the configuration, constructing changes neither the
    library's state nor the trace. *)
Theorem constructor_requires_endpoint {L : Type} `{Playwright L}
        (config : option CDPBrowserConfig.t) (w : World L) :
  endpoint_missing config = true ->
  constructor config w
    = (Throw (Js.new_Error "CDP wsEndpoint is required but was not provided"), w) /\
  (forall (any : option CDPBrowserConfig.t) (w' : World L), snd (constructor any w') = w').
Proof.
  intros Hm. split.
  - rewrite constructor_run, Hm. reflexivity.
  - intros any w'. now rewrite constructor_run.
Qed.

Lemma constructor_requires_endpoint_witness :
  endpoint_missing None = true /\
  constructor None Lab.boot
    = (Throw (Js.new_Error "CDP wsEndpoint is required but was not provided"), Lab.boot) /\
  (forall (any : option CDPBrowserConfig.t) (w' : World Lab.t), snd (constructor any w') = w').
Proof.
  split; [reflexivity |].
  apply (constructor_requires_endpoint None Lab.boot). reflexivity.
Defined.

(** C5, as the code has it.  A [start] that returns has written the
    connected handle into the session field; [close] then assigns no
    field, so the provider still holds the handle after [close] and
    [getSession] still returns it. *)
Theorem close_keeps_session {L : Type} `{Playwright L}
        (i i1 : Instance L) (r : option Browser) :
  start i = (Normal r, i1) ->
  exists b,
    r = Some b /\
    session (this i1) = Some b /\
    this (snd (close i1)) = this i1 /\
    getSession (snd (close i1)) = (Normal (value b), snd (close i1)).
Proof.
  intros E. destruct (start_normal_inv i E) as (b & l' & _ & _ & -> & Ht).
  exists b. split; [reflexivity |].
  assert (Hb : session (this i1) = Some b) by now rewrite Ht.
  split; [exact Hb |]. split; [apply close_keeps_this |].
  rewrite getSession_run, close_keeps_this, Hb. reflexivity.
Qed.

Lemma close_keeps_session_witness :
  let i1 := snd (start (Lab.fresh Lab.listening true)) in
  start (Lab.fresh Lab.listening true) = (Normal (Some (BrowserRef 0)), i1) /\
  exists b,
    Some (BrowserRef 0) = Some b /\
    session (this i1) = Some b /\
    this (snd (close i1)) = this i1 /\
    getSession (snd (close i1)) = (Normal (value b), snd (close i1)).
Proof.
  split; [reflexivity |].
  apply (close_keeps_session (Lab.fresh Lab.listening true)). reflexivity.
Defined.

(** C5, as stated, fails: in the scripted library a provider is started,
    then closed, both without error, and the session field still holds
    the handle. *)
Lemma session_not_cleared_by_close :
  let i0 := Lab.fresh Lab.listening false in
  let i1 := snd (start i0) in
  let i2 := snd (close i1) in
  fst (start i0) = Normal (Some (BrowserRef 0)) /\
  fst (close i1) = Normal tt /\
  session (this i2) = Some (BrowserRef 0) /\
  session (this i2) <> None.
Proof. cbv zeta. repeat split. discriminate. Qed.

(** C6. With the scheme in place, two calls of [start] in a row make two
    calls of [connectOverCDP], whether or not the first one left a
    session behind; and when both return, the second returns the handle
    its own connection attempt produced, which is then the stored session
    and the result of [getSession]. *)
Theorem start_twice_overwrites_session {L : Type} `{Playwright L} (i : Instance L) :
  scheme_ok (wsEndpoint (this i)) = true ->
  let i1 := snd (start i) in
  let i2 := snd (start i1) in
  connection_attempts (trace (world i2)) = 2 + connection_attempts (trace (world i)) /\
  (forall r1 r2 : option Browser,
      fst (start i) = Normal r1 ->
      fst (start i1) = Normal r2 ->
      exists b1 b2 l2,
        r1 = Some b1 /\ session (this i1) = Some b1 /\
        connectOverCDP (connect_args (this i1)) (remote (world i1)) = (Normal b2, l2) /\
        r2 = Some b2 /\ session (this i2) = Some b2 /\
        getSession i2 = (Normal (value b2), i2)).
Proof.
  intros Hs i1 i2.
  assert (Hs1 : scheme_ok (wsEndpoint (this i1)) = true)
    by (unfold i1; now rewrite start_keeps_endpoint).
  split.
  - unfold i2. rewrite (start_attempts_once i1 Hs1).
    unfold i1. rewrite (start_attempts_once i Hs). reflexivity.
  - intros r1 r2 E1 E2.
    assert (F1 : start i = (Normal r1, i1))
      by (unfold i1; rewrite <- E1; apply surjective_pairing).
    assert (F2 : start i1 = (Normal r2, i2))
      by (unfold i2; rewrite <- E2; apply surjective_pairing).
    destruct (start_normal_inv i F1) as (b1 & l1 & _ & _ & -> & T1).
    destruct (start_normal_inv i1 F2) as (b2 & l2 & _ & C2 & -> & T2).
    exists b1, b2, l2.
    assert (S2 : session (this i2) = Some b2) by now rewrite T2.
    repeat split; try assumption.
    + now rewrite T1.
    + now rewrite getSession_run, S2.
Qed.

Lemma start_twice_overwrites_session_witness :
  let i0 := Lab.fresh Lab.listening false in
  let i1 := snd (start i0) in
  let i2 := snd (start i1) in
  scheme_ok Lab.listening = true /\
  connection_attempts (trace (world i2)) = 2 /\
  fst (start i0) = Normal (Some (BrowserRef 0)) /\
  fst (start i1) = Normal (Some (BrowserRef 1)) /\
  exists b1 b2 l2,
    Some (BrowserRef 0) = Some b1 /\ session (this i1) = Some b1 /\
    connectOverCDP (connect_args (this i1)) (remote (world i1)) = (Normal b2, l2) /\
    Some (BrowserRef 1) = Some b2 /\ session (this i2) = Some b2 /\
    getSession i2 = (Normal (value b2), i2).
Proof.
  intros i0 i1 i2.
  pose proof (start_twice_overwrites_session i0 eq_refl) as [Hn Hr].
  split; [reflexivity |]. split; [exact Hn |].
  split; [reflexivity |]. split; [reflexivity |].
  exact (Hr (Some (BrowserRef 0)) (Some (BrowserRef 1)) eq_refl eq_refl).
Defined.

(** C7. On a provider on which no [start] has succeeded, [close] returns
    normally and changes nothing: the provider's fields, the library's
    state and the trace are as before, so the library's [close] has not
    been called. *)
Theorem close_before_start_is_noop {L : Type} `{Playwright L}
        (p : CDPBrowserProvider) (w : World L) :
  Unstarted p ->
  close {| this := p; world := w |} = (Normal tt, {| this := p; world := w |}).
Proof.
  intros Hu. apply close_idle. cbn. now apply Unstarted_no_session.
Qed.

Lemma close_before_start_is_noop_witness :
  let i1 := snd (start (Lab.fresh "ws://localhost:9333" true)) in
  Unstarted (this i1) /\
  close {| this := this i1; world := world i1 |}
    = (Normal tt, {| this := this i1; world := world i1 |}).
Proof.
  intros i1.
  assert (Hu : Unstarted (this i1)).
  { apply (@Unstarted_start _ _ (Lab.provider "ws://localhost:9333" true) Lab.boot
             (Js.new_Error ("Failed to connect to CDP WebSocket endpoint: "
                            ++ "ws://localhost:9333. connect ECONNREFUSED 127.0.0.1:9333"))
             i1).
    - apply (@Unstarted_new _ _ (Lab.config "ws://localhost:9333" true) Lab.boot Lab.boot).
      reflexivity.
    - reflexivity. }
  split; [exact Hu |].
  exact (close_before_start_is_noop (world i1) Hu).
Defined.

(** C8. [getSession] returns normally in every state, without changing
    it: the stored handle when there is one, [null] otherwise. *)
Theorem getSession_never_throws {L : Type} `{Playwright L} (i : Instance L) :
  getSession i = (Normal match session (this i) with
                         | Some b => value b
                         | None => null
                         end, i)
  /\ ~ (exists v : Js.Value, fst (getSession i) = Throw v).
Proof.
  rewrite getSession_run. split; [reflexivity |].
  intros [v E]. discriminate E.
Qed.

(** C9. With a session [b] stored and the library's [close] of [b]
    rejecting with [v], [close] throws that same [v]; the library was
    called once, and the provider's fields are as before. *)
Theorem close_propagates_failure {L : Type} `{Playwright L}
        (i : Instance L) (b : Browser) (v : Js.Value) (l' : L) :
  session (this i) = Some b ->
  Browser_close b (remote (world i)) = (Throw v, l') ->
  exists i',
    close i = (Throw v, i') /\
    this i' = this i /\
    remote (world i') = l' /\
    trace (world i') = (trace (world i) ++ closing_lines (this i) ++ [CallClose b])%list.
Proof.
  intros Hb Hc. eexists. rewrite (close_session i Hb), Hc. cbn [fst snd].
  repeat split.
Qed.

Lemma close_propagates_failure_witness :
  let i2 := snd (close (snd (start (Lab.fresh Lab.listening false)))) in
  session (this i2) = Some (BrowserRef 0) /\
  Browser_close (BrowserRef 0) (remote (world i2)) = (Throw Lab.gone, remote (world i2)) /\
  exists i',
    close i2 = (Throw Lab.gone, i') /\
    this i' = this i2 /\
    remote (world i') = remote (world i2) /\
    trace (world i')
      = (trace (world i2) ++ closing_lines (this i2) ++ [CallClose (BrowserRef 0)])%list.
Proof.
  intros i2. split; [reflexivity |]. split; [reflexivity |].
  apply (close_propagates_failure i2 (b := BrowserRef 0) (v := Lab.gone)); reflexivity.
Defined.

(** C10. With the scheme in place and [connectOverCDP] rejecting, [start]
    throws and every field of the provider, the session among them, is
    what it was before the call; a session stored earlier stays stored. *)
Theorem failed_connect_keeps_session {L : Type} `{Playwright L}
        (i : Instance L) (v : Js.Value) (l' : L) :
  scheme_ok (wsEndpoint (this i)) = true ->
  connectOverCDP (connect_args (this i)) (remote (world i)) = (Throw v, l') ->
  exists e i',
    start i = (Throw e, i') /\
    this i' = this i /\
    session (this i') = session (this i) /\
    (forall b : Browser, session (this i) = Some b ->
                         getSession i' = (Normal (value b), i')).
Proof.
  intros Hs Hc. do 2 eexists. split; [exact (start_refused i Hs Hc) |].
  cbn [after this]. repeat split.
  intros b Hb. rewrite getSession_run. cbn [after this]. now rewrite Hb.
Qed.

Lemma failed_connect_keeps_session_witness :
  let i1 := Lab.power_off (snd (start (Lab.fresh Lab.listening false))) in
  scheme_ok (wsEndpoint (this i1)) = true /\
  connectOverCDP (connect_args (this i1)) (remote (world i1))
    = (Throw Lab.refused, remote (world i1)) /\
  session (this i1) = Some (BrowserRef 0) /\
  exists e i',
    start i1 = (Throw e, i') /\
    this i' = this i1 /\
    session (this i') = session (this i1) /\
    (forall b : Browser, session (this i1) = Some b ->
                         getSession i' = (Normal (value b), i')).
Proof.
  intros i1. split; [reflexivity |]. split; [reflexivity |]. split; [reflexivity |].
  apply (failed_connect_keeps_session i1 (v := Lab.refused) (l' := remote (world i1)));
    reflexivity.
Defined.

(** ** Concrete runs against the scripted library *)

(** A debug-mode connection, line by line. *)
Example lab_debug_connect :
  trace (world (snd (start (Lab.fresh Lab.listening true))))
  = [ConsoleLog [Js.LF ++ "Connecting to CDP WebSocket endpoint:"; Lab.listening];
     CallConnectOverCDP (spread Lab.listening None);
     ConsoleLog ["Successfully connected to CDP browser" ++ Js.LF];
     CallContexts (BrowserRef 0);
     ConsoleLog ["Connected browser has 1 context(s)"]].
Proof. reflexivity. Qed.

(** Caller-supplied options travel with the endpoint. *)
Example lab_options_passed :
  let o := {| headers := None; slowMo := None; timeout := Some 10000%Z |} in
  let p := {| wsEndpoint := Lab.listening; options := Some o;
              session := None; debug := false |} in
  trace (world (snd (start {| this := p; world := Lab.boot |})))
  = [CallConnectOverCDP {| endpointURL := Lab.listening; rest := o |}].
Proof. reflexivity. Qed.

(** A value that is not an [Error] is reported through [String]. *)
Example cause_of_primitive :
  errorMessage_of (Js.Str "socket hang up") = "socket hang up"
  /\ errorMessage_of Js.Undefined = "undefined"
  /\ errorMessage_of (Js.ErrorObject "TimeoutError" "Timeout 10000ms exceeded")
     = "Timeout 10000ms exceeded".
Proof. repeat split. Qed.

(** The wss scheme passes the test; a scheme in capitals does not. *)
Example scheme_samples :
  scheme_ok "wss://browser.example.com/devtools" = true
  /\ scheme_ok "WS://localhost:9222" = false
  /\ scheme_ok "ws:/" = false.
Proof. repeat split. Qed.

(** ** Further properties of the provider *)

Section Lines.

Context {L : Type} `{Playwright L}.

Lemma closed_app (t u : list Event) : closed (t ++ u) = (closed t ++ closed u)%list.
Proof. apply filter_app. Qed.

Lemma dialled_app (t u : list Event) : dialled (t ++ u) = (dialled t ++ dialled u)%list.
Proof. apply filter_app. Qed.

Lemma banner_lines (p : CDPBrowserProvider) :
  closed (banner p) = [] /\ dialled (banner p) = [].
Proof. unfold banner. now destruct (debug p). Qed.

Lemma connected_lines_lines (p : CDPBrowserProvider) (b : Browser) (l : L) :
  closed (connected_lines p b l) = [] /\ dialled (connected_lines p b l) = [].
Proof. unfold connected_lines. now destruct (debug p). Qed.

Lemma failure_lines_lines (p : CDPBrowserProvider) (m : string) :
  closed (failure_lines p m) = [] /\ dialled (failure_lines p m) = [].
Proof. unfold failure_lines. now destruct (debug p). Qed.

Lemma closing_lines_lines (p : CDPBrowserProvider) : closed (closing_lines p) = [].
Proof. unfold closing_lines. now destruct (debug p). Qed.

Lemma start_trace (i : Instance L) :
  trace (world (snd (start i))) = (trace (world i) ++ start_events i)%list.
Proof.
  unfold start_events.
  destruct (start_cases i) as [Hs | b l' Hs Hc | v l' Hs Hc]; rewrite Hs;
    cbn [snd after world trace]; try rewrite Hc; try rewrite app_nil_r; reflexivity.
Qed.

Lemma close_trace (i : Instance L) :
  trace (world (snd (close i)))
  = (trace (world i) ++
     match session (this i) with
     | Some b => closing_lines (this i) ++ [CallClose b]
     | None => []
     end)%list.
Proof.
  destruct (session (this i)) as [b |] eqn:Hs.
  - now rewrite (close_session i Hs).
  - rewrite (close_idle i Hs). cbn [snd]. now rewrite app_nil_r.
Qed.

Lemma start_keeps_configuration (i : Instance L) :
  wsEndpoint (this (snd (start i))) = wsEndpoint (this i) /\
  options (this (snd (start i))) = options (this i) /\
  debug (this (snd (start i))) = debug (this i).
Proof. destruct (start_cases i); repeat split. Qed.

Lemma scheme_needs_text (endpoint : string) : scheme_ok endpoint = true -> endpoint <> "".
Proof. intros Hs ->. discriminate Hs. Qed.

End Lines.

(** X1. A configuration with a non-empty endpoint is accepted whatever
    the endpoint's scheme: the constructor returns a provider holding the
    endpoint and the options as given, [debug] as given or [false] when
    absent, and no session, so that [getSession] answers [null]; the world
    is untouched. *)
Theorem constructor_accepts_any_text {L : Type} `{Playwright L}
        (c : CDPBrowserConfig.t) (e : string) (w : World L) :
  CDPBrowserConfig.wsEndpoint c = Some e ->
  e <> "" ->
  exists p,
    constructor (Some c) w = (Normal p, w) /\
    wsEndpoint p = e /\
    options p = CDPBrowserConfig.options c /\
    debug p = match CDPBrowserConfig.debug c with Some d => d | None => false end /\
    session p = None /\
    fst (getSession {| this := p; world := w |}) = Normal null.
Proof.
  intros He Hn. rewrite constructor_run. cbn [endpoint_missing]. rewrite He.
  destruct (String.eqb_spec e "") as [-> | _]; [now elim Hn |].
  eexists. split; [reflexivity |]. cbn. repeat split.
Qed.

Lemma constructor_accepts_any_text_witness :
  let c := {| CDPBrowserConfig.wsEndpoint := Some "http://localhost:9222";
              CDPBrowserConfig.options := None;
              CDPBrowserConfig.debug := None |} in
  "http://localhost:9222" <> "" /\
  exists p,
    constructor (Some c) Lab.boot = (Normal p, Lab.boot) /\
    wsEndpoint p = "http://localhost:9222" /\
    options p = None /\
    debug p = false /\
    session p = None /\
    fst (getSession {| this := p; world := Lab.boot |}) = Normal null.
Proof.
  intros c.
  assert (Hn : "http://localhost:9222" <> "") by discriminate.
  split; [exact Hn |].
  exact (constructor_accepts_any_text c Lab.boot eq_refl Hn).
Defined.

(** X2. The endpoint, the options and the debug flag of a provider are
    fixed for its lifetime: after any sequence of [start], [close] and
    [getSession], whatever their outcomes, they are what they were. *)
Theorem configuration_is_fixed {L : Type} `{Playwright L} (p0 p : CDPBrowserProvider) :
  Reachable p0 p ->
  wsEndpoint p = wsEndpoint p0 /\ options p = options p0 /\ debug p = debug p0.
Proof.
  induction 1 as [| p w r i' _ IH Hs | p w r i' _ IH Hc | p w r i' _ IH Hg].
  - repeat split.
  - pose proof (start_keeps_configuration {| this := p; world := w |}) as K.
    rewrite Hs in K. cbn [snd this] in K.
    destruct K as (K1 & K2 & K3), IH as (I1 & I2 & I3).
    rewrite K1, K2, K3. now repeat split.
  - pose proof (close_keeps_this {| this := p; world := w |}) as K.
    rewrite Hc in K. cbn [snd this] in K. now rewrite K.
  - rewrite getSession_run in Hg. injection Hg as _ <-. exact IH.
Qed.

Lemma configuration_is_fixed_witness :
  let p0 := Lab.provider Lab.listening true in
  let i1 := snd (start {| this := p0; world := Lab.boot |}) in
  let i2 := snd (close i1) in
  Reachable p0 (this i2) /\
  session (this i2) = Some (BrowserRef 0) /\
  wsEndpoint (this i2) = Lab.listening /\
  options (this i2) = None /\
  debug (this i2) = true.
Proof.
  intros p0 i1 i2.
  assert (R : Reachable p0 (this i2)).
  { apply (@Reachable_close _ _ p0 (this i1) (world i1) (Normal tt) i2).
    - apply (@Reachable_start _ _ p0 p0 Lab.boot (Normal (Some (BrowserRef 0))) i1).
      + apply Reachable_here.
      + reflexivity.
    - reflexivity. }
  split; [exact R |]. split; [reflexivity |].
  exact (configuration_is_fixed R).
Defined.

(** X3. With [debug] off the provider writes nothing to the console and
    never asks for the browser's contexts: the only event of a [start] is
    its call of [connectOverCDP], if the scheme test lets it through, and
    the only event of a [close] is the library's [close] on the stored
    handle, if there is one. *)
Theorem quiet_without_debug {L : Type} `{Playwright L} (i : Instance L) :
  debug (this i) = false ->
  trace (world (snd (start i)))
    = (trace (world i) ++
       if scheme_ok (wsEndpoint (this i))
       then [CallConnectOverCDP (connect_args (this i))]
       else [])%list /\
  trace (world (snd (close i)))
    = (trace (world i) ++
       match session (this i) with
       | Some b => [CallClose b]
       | None => []
       end)%list.
Proof.
  intros Hd. rewrite start_trace, close_trace.
  unfold start_events, banner, connected_lines, failure_lines, closing_lines.
  rewrite Hd. split.
  - destruct (scheme_ok _); [| reflexivity].
    now destruct (fst (connectOverCDP _ _)).
  - now destruct (session (this i)).
Qed.

Lemma quiet_without_debug_witness :
  let i0 := Lab.fresh Lab.listening false in
  let i1 := snd (start i0) in
  debug (this i0) = false /\
  trace (world i1) = [CallConnectOverCDP (connect_args (this i0))] /\
  trace (world (snd (close i1)))
    = [CallConnectOverCDP (connect_args (this i0)); CallClose (BrowserRef 0)].
Proof.
  intros i0 i1.
  split; [reflexivity |].
  destruct (quiet_without_debug i0 eq_refl) as [Hs _].
  destruct (quiet_without_debug i1 eq_refl) as [_ Hc].
  split; [exact Hs | exact Hc].
Defined.

(** X4. The endpoint and the options given to the constructor are the
    ones the library is called with: a provider constructed from them, on
    [start] in any world, makes one call of [connectOverCDP] whose
    argument has that endpoint as [endpointURL] and those options beside
    it. *)
Theorem options_reach_the_library {L : Type} `{Playwright L}
        (c : CDPBrowserConfig.t) (e : string) (o : ConnectOverCDPOptions)
        (w w1 : World L) :
  CDPBrowserConfig.wsEndpoint c = Some e ->
  CDPBrowserConfig.options c = Some o ->
  scheme_ok e = true ->
  exists p,
    constructor (Some c) w = (Normal p, w) /\
    dialled (trace (world (snd (start {| this := p; world := w1 |}))))
    = (dialled (trace w1) ++ [CallConnectOverCDP {| endpointURL := e; rest := o |}])%list.
Proof.
  intros He Ho Hs.
  destruct (constructor_accepts_any_text c w He (scheme_needs_text Hs))
    as (p & Hc & Hpe & Hpo & _).
  exists p. split; [exact Hc |].
  rewrite start_trace, dialled_app. f_equal.
  unfold start_events, connect_args. cbn [this world remote].
  rewrite Hpe, Hpo, Ho, Hs, dialled_app.
  rewrite (proj2 (banner_lines p)). cbn [app dialled filter is_connect]. f_equal.
  destruct (connectOverCDP _ _) as [[b | v] l']; cbn [fst snd].
  - apply connected_lines_lines.
  - apply failure_lines_lines.
Qed.

Lemma options_reach_the_library_witness :
  let o := {| headers := None; slowMo := None; timeout := Some 30000%Z |} in
  let c := {| CDPBrowserConfig.wsEndpoint := Some Lab.listening;
              CDPBrowserConfig.options := Some o;
              CDPBrowserConfig.debug := Some true |} in
  scheme_ok Lab.listening = true /\
  exists p,
    constructor (Some c) Lab.boot = (Normal p, Lab.boot) /\
    dialled (trace (world (snd (start {| this := p; world := Lab.boot |}))))
    = ([] ++ [CallConnectOverCDP {| endpointURL := Lab.listening; rest := o |}])%list.
Proof.
  intros o c. split; [reflexivity |].
  exact (options_reach_the_library c Lab.boot Lab.boot eq_refl eq_refl eq_refl).
Defined.

(** X5. With a session [b] stored and the library's [close] of [b]
    resolving, [close] returns normally after exactly one call of the
    library's [close], on [b]; the provider's fields, the session among
    them, are as before. *)
Theorem close_calls_library_once {L : Type} `{Playwright L}
        (i : Instance L) (b : Browser) (l' : L) :
  session (this i) = Some b ->
  Browser_close b (remote (world i)) = (Normal tt, l') ->
  exists i',
    close i = (Normal tt, i') /\
    this i' = this i /\
    remote (world i') = l' /\
    closed (trace (world i')) = (closed (trace (world i)) ++ [CallClose b])%list.
Proof.
  intros Hb Hc. eexists. rewrite (close_session i Hb), Hc. cbn [fst snd].
  repeat split. cbn [after world trace].
  now rewrite !closed_app, closing_lines_lines.
Qed.

Lemma close_calls_library_once_witness :
  let i1 := snd (start (Lab.fresh Lab.listening true)) in
  session (this i1) = Some (BrowserRef 0) /\
  exists i',
    close i1 = (Normal tt, i') /\
    this i' = this i1 /\
    remote (world i') = {| Lab.up := true; Lab.served := 1; Lab.live := [] |} /\
    closed (trace (world i')) = (closed (trace (world i1)) ++ [CallClose (BrowserRef 0)])%list.
Proof.
  intros i1. split; [reflexivity |].
  apply (close_calls_library_once i1 (b := BrowserRef 0)); reflexivity.
Defined.

(** X6. [close] is not guarded against repetition: with a session [b]
    stored, two calls of [close] in a row call the library's [close] on
    [b] twice, whether the first call returned or threw. *)
Theorem close_twice_calls_library_twice {L : Type} `{Playwright L}
        (i : Instance L) (b : Browser) :
  session (this i) = Some b ->
  closed (trace (world (snd (close (snd (close i))))))
  = (closed (trace (world i)) ++ [CallClose b; CallClose b])%list.
Proof.
  intros Hb.
  assert (Hb1 : session (this (snd (close i))) = Some b)
    by now rewrite close_keeps_this.
  rewrite close_trace, Hb1, close_trace, Hb, close_keeps_this.
  rewrite !closed_app, closing_lines_lines. cbn [app closed filter is_close].
  now rewrite <- app_assoc.
Qed.

Lemma close_twice_calls_library_twice_witness :
  let i1 := snd (start (Lab.fresh Lab.listening false)) in
  session (this i1) = Some (BrowserRef 0) /\
  fst (close i1) = Normal tt /\
  fst (close (snd (close i1))) = Throw Lab.gone /\
  closed (trace (world (snd (close (snd (close i1))))))
  = (closed (trace (world i1)) ++ [CallClose (BrowserRef 0); CallClose (BrowserRef 0)])%list.
Proof.
  intros i1. split; [reflexivity |]. split; [reflexivity |]. split; [reflexivity |].
  exact (close_twice_calls_library_twice i1 eq_refl).
Defined.

(** X7. [start] never calls the library's [close]: whatever its outcome
    the calls of [close] in the trace are those made before.  A handle
    that a second [start] overwrites is therefore dropped unclosed. *)
Theorem start_never_closes {L : Type} `{Playwright L} (i : Instance L) :
  closed (trace (world (snd (start i)))) = closed (trace (world i)).
Proof.
  rewrite start_trace, closed_app. unfold start_events.
  rewrite closed_app, (proj1 (banner_lines (this i))). cbn [app].
  destruct (scheme_ok _); [| now rewrite app_nil_r].
  cbn [closed filter is_close].
  destruct (fst (connectOverCDP _ _)).
  - fold (closed (connected_lines (this i) a
                    (snd (connectOverCDP (connect_args (this i)) (remote (world i)))))).
    rewrite (proj1 (connected_lines_lines _ _ _)). apply app_nil_r.
  - fold (closed (failure_lines (this i) (errorMessage_of v))).
    rewrite (proj1 (failure_lines_lines _ _)). apply app_nil_r.
Qed.



Lemma prefix_before (t post s : string) :
  no_overlap t post = true -> String.prefix t (s ++ post) = String.prefix t s.
Proof.
  revert s. induction t as [| c t IH]; intros s Hn.
  - now destruct s, post.
  - cbn [no_overlap] in Hn. apply andb_true_iff in Hn as [Hp Ht].
    apply negb_true_iff in Hp.
    destruct s as [| a s]; cbn [append].
    + exact Hp.
    + cbn [String.prefix]. destruct (Ascii.ascii_dec c a); [now apply IH | reflexivity].
Qed.

Lemma includes_before (t post s : string) :
  no_overlap t post = true ->
  Js.includes post t = false ->
  Js.includes (s ++ post) t = Js.includes s t.
Proof.
  intros Hn Hp. induction s as [| a s IH]; cbn [append].
  - rewrite Hp. destruct t; [now destruct post |]. reflexivity.
  - cbn [Js.includes]. rewrite IH. f_equal.
    change (String a (s ++ post)) with (String a s ++ post).
    now apply prefix_before.
Qed.

(** X9. The error [start] throws when [connectOverCDP] rejects passes the
    example scripts' test for a connection failure: it is an [Error] and
    its message includes "connect", whatever the endpoint and the cause. *)
Theorem connection_error_gets_the_hint {L : Type} `{Playwright L}
        (i : Instance L) (v : Js.Value) (l' : L) :
  scheme_ok (wsEndpoint (this i)) = true ->
  connectOverCDP (connect_args (this i)) (remote (world i)) = (Throw v, l') ->
  exists e, fst (start i) = Throw e /\ connection_hint e = true.
Proof.
  intros Hs Hc. rewrite (start_refused i Hs Hc). eexists. split; [reflexivity |].
  apply (includes_infix "Failed to " "connect").
Qed.

Lemma connection_error_gets_the_hint_witness :
  let i0 := Lab.fresh "wss://remote.example/devtools" true in
  scheme_ok (wsEndpoint (this i0)) = true /\
  exists e, fst (start i0) = Throw e /\ connection_hint e = true.
Proof.
  intros i0. split; [reflexivity |].
  apply (connection_error_gets_the_hint i0 (v := Lab.refused) (l' := remote Lab.boot));
    reflexivity.
Defined.

(** X10. The format error passes that test exactly when the rejected
    endpoint itself contains "connect": the fixed words of its message do
    not. *)
Theorem format_error_hint_depends_on_endpoint {L : Type} `{Playwright L}
        (i : Instance L) :
  scheme_ok (wsEndpoint (this i)) = false ->
  exists e,
    fst (start i) = Throw e /\
    connection_hint e = Js.includes (wsEndpoint (this i)) "connect".
Proof.
  intros Hs. rewrite (start_bad_scheme i Hs). eexists. split; [reflexivity |].
  unfold format_error, Js.new_Error, connection_hint.
  transitivity (Js.includes (wsEndpoint (this i) ++ ". Must start with ws:// or wss://")
                            "connect").
  - reflexivity.
  - now apply includes_before.
Qed.

Lemma format_error_hint_depends_on_endpoint_witness :
  let i0 := Lab.fresh "http://connect.example:9222" false in
  let i1 := Lab.fresh "http://localhost:9222" false in
  scheme_ok (wsEndpoint (this i0)) = false /\
  (exists e, fst (start i0) = Throw e /\ connection_hint e = true) /\
  (exists e, fst (start i1) = Throw e /\ connection_hint e = false).
Proof.
  intros i0 i1. split; [reflexivity |]. split.
  - exact (format_error_hint_depends_on_endpoint i0 eq_refl).
  - exact (format_error_hint_depends_on_endpoint i1 eq_refl).
Defined.

(** X11. A provider constructed with an endpoint that fails the scheme
    test never changes and never reaches the network: after any sequence
    of method calls it is the provider the constructor made, without a
    session, and a further [start] or [close] in any world adds no call
    of [connectOverCDP] or of the library's [close] to the trace. *)
Theorem bad_scheme_never_connects {L : Type} `{Playwright L}
        (config : option CDPBrowserConfig.t) (w0 w0' : World L)
        (p0 p : CDPBrowserProvider) :
  constructor config w0 = (Normal p0, w0') ->
  scheme_ok (wsEndpoint p0) = false ->
  Reachable p0 p ->
  p = p0 /\
  session p = None /\
  forall w : World L,
    dialled (trace (world (snd (start {| this := p; world := w |})))) = dialled (trace w) /\
    trace (world (snd (close {| this := p; world := w |}))) = trace w.
Proof.
  intros Hc Hs R.
  pose proof (constructor_no_session _ _ Hc) as Hn.
  assert (E : p = p0).
  { induction R as [| p w r i' _ IH Hst | p w r i' _ IH Hcl | p w r i' _ IH Hg].
    - reflexivity.
    - rewrite IH in Hst. rewrite (start_bad_scheme {| this := p0; world := w |} Hs) in Hst.
      now injection Hst as _ <-.
    - pose proof (close_keeps_this {| this := p; world := w |}) as K.
      rewrite Hcl in K. cbn [snd this] in K. now rewrite K.
    - rewrite getSession_run in Hg. now injection Hg as _ <-. }
  subst p. repeat split; [exact Hn | |].
  - rewrite (start_bad_scheme {| this := p0; world := w |} Hs).
    cbn [snd after world trace this]. rewrite dialled_app.
    rewrite (proj2 (banner_lines p0)). apply app_nil_r.
  - rewrite close_trace. cbn [this world trace]. rewrite Hn. apply app_nil_r.
Qed.

Lemma bad_scheme_never_connects_witness :
  let p0 := Lab.provider "localhost:9222" true in
  let i1 := snd (start {| this := p0; world := Lab.boot |}) in
  constructor (Lab.config "localhost:9222" true) Lab.boot = (Normal p0, Lab.boot) /\
  Reachable p0 (this i1) /\
  this i1 = p0 /\
  session (this i1) = None /\
  forall w : World Lab.t,
    dialled (trace (world (snd (start {| this := this i1; world := w |}))))
    = dialled (trace w) /\
    trace (world (snd (close {| this := this i1; world := w |}))) = trace w.
Proof.
  intros p0 i1.
  assert (C : constructor (Lab.config "localhost:9222" true) Lab.boot = (Normal p0, Lab.boot))
    by reflexivity.
  assert (R : Reachable p0 (this i1)).
  { apply (@Reachable_start _ _ p0 p0 Lab.boot (fst (start {| this := p0; world := Lab.boot |})) i1).
    - apply Reachable_here.
    - reflexivity. }
  split; [exact C |]. split; [exact R |].
  exact (bad_scheme_never_connects (Lab.config "localhost:9222" true) Lab.boot C eq_refl R).
Defined.

(** X12. A provider that holds a session never goes back to holding
    none: after any further sequence of method calls, whatever their
    outcomes, [getSession] answers a handle and not [null]. *)
Theorem session_is_never_dropped {L : Type} `{Playwright L}
        (p0 p : CDPBrowserProvider) (b0 : Browser) :
  session p0 = Some b0 ->
  Reachable p0 p ->
  exists b,
    session p = Some b /\
    forall w : World L,
      getSession {| this := p; world := w |} = (Normal (value b), {| this := p; world := w |}).
Proof.
  intros H0 R.
  assert (S : exists b, session p = Some b).
  { induction R as [| p w r i' _ IH Hst | p w r i' _ IH Hcl | p w r i' _ IH Hg].
    - now exists b0.
    - destruct (start_cases {| this := p; world := w |}); inversion Hst; subst;
        cbn [after this with_session session]; eauto.
    - pose proof (close_keeps_this {| this := p; world := w |}) as K.
      rewrite Hcl in K. cbn [snd this] in K. now rewrite K.
    - rewrite getSession_run in Hg. now injection Hg as _ <-. }
  destruct S as [b Hb]. exists b. split; [exact Hb |].
  intros w. rewrite getSession_run. cbn [this]. now rewrite Hb.
Qed.

Lemma session_is_never_dropped_witness :
  let i1 := snd (start (Lab.fresh Lab.listening false)) in
  let i2 := snd (close i1) in
  let i3 := snd (start (Lab.power_off i2)) in
  session (this i1) = Some (BrowserRef 0) /\
  fst (start (Lab.power_off i2)) = Throw (connection_error Lab.listening
                                            "connect ECONNREFUSED 127.0.0.1:9333") /\
  Reachable (this i1) (this i3) /\
  exists b,
    session (this i3) = Some b /\
    forall w : World Lab.t,
      getSession {| this := this i3; world := w |}
      = (Normal (value b), {| this := this i3; world := w |}).
Proof.
  intros i1 i2 i3.
  assert (R : Reachable (this i1) (this i3)).
  { apply (@Reachable_start _ _ (this i1) (this i2) (world (Lab.power_off i2))
             (fst (start (Lab.power_off i2))) i3).
    - apply (@Reachable_close _ _ (this i1) (this i1) (world i1) (Normal tt) i2).
      + apply Reachable_here.
      + reflexivity.
    - reflexivity. }
  split; [reflexivity |]. split; [reflexivity |]. split; [exact R |].
  exact (@session_is_never_dropped _ _ (this i1) (this i3) (BrowserRef 0) eq_refl R).
Defined.

(** ** The connectivity tester's loop *)

Ltac run_probe :=
  unfold attempt, probe, report_failure, call, await, chromium_connectOverCDP,
    browser_contexts, browser_close, console_log, emit;
  cbn.

(** Case analysis on every answer the library can give during a probe. *)
Ltac settle :=
  repeat match goal with
    | |- context [connectOverCDP ?a ?l] =>
        destruct (connectOverCDP a l) as [[? | ?] ?] eqn:?; cbn
    | |- context [Nat.eqb (length ?c) 0] => destruct (Nat.eqb (length c) 0) eqn:?; cbn
    | |- context [newContext ?b ?l] => destruct (newContext b l) as [[? | ?] ?] eqn:?; cbn
    | |- context [newPage ?b ?l] => destruct (newPage b l) as [[? | ?] ?] eqn:?; cbn
    | |- context [Page_goto ?p ?u ?l] =>
        destruct (Page_goto p u l) as [[? | ?] ?] eqn:?; cbn
    | |- context [Page_title ?p ?l] => destruct (Page_title p l) as [[? | ?] ?] eqn:?; cbn
    | |- context [BrowserContext_close ?c ?l] =>
        destruct (BrowserContext_close c l) as [[? | ?] ?] eqn:?; cbn
    | |- context [Browser_close ?b ?l] =>
        destruct (Browser_close b l) as [[[] | ?] ?] eqn:?; cbn
    end.

Ltac tidy_filter :=
  unfold dialled, closed; rewrite ?filter_app; cbn; rewrite ?app_nil_r.

Section TesterRuns.

Context {L : Type} `{Playwright L} `{PlaywrightPages L}.

(** One turn of the loop: no rejection escapes it, it dials once, and it
    answers [true] only after the library closed the browser it had
    connected. *)
Lemma attempt_run (e : string) (w : World L) :
  exists ok w',
    attempt e w = (Normal ok, w') /\
    dialled (trace w') = (dialled (trace w) ++ [dial e])%list /\
    (ok = true ->
     exists b l1 l2,
       connectOverCDP (probe_args e) (remote w) = (Normal b, l1) /\
       Browser_close b l2 = (Normal tt, remote w') /\
       closed (trace w') = (closed (trace w) ++ [CallClose b])%list).
Proof.
  destruct w as [l t]. run_probe. settle.
  all: do 2 eexists; split; [reflexivity |]; split;
    [cbn [trace]; tidy_filter; reflexivity |]; try discriminate.
  all: intros _; do 3 eexists; split; [reflexivity |]; split; [eassumption |];
    cbn [trace]; tidy_filter; reflexivity.
Qed.

Lemma try_endpoints_step (e : string) (others : list string) (w : World L) :
  try_endpoints (e :: others) w =
  let w1 := {| remote := remote w; trace := trace w ++ [ConsoleLog ["Testing: " ++ e]] |} in
  match attempt e w1 with
  | (Normal true, w2) => (Normal (value e), w2)
  | (Normal false, w2) => try_endpoints others w2
  | (Throw v, w2) => (Throw v, w2)
  end.
Proof.
  cbn [try_endpoints]. unfold console_log, emit. cbn -[attempt try_endpoints].
  match goal with
  | |- context [attempt e ?x] => destruct (attempt e x) as [[[|] | v] w2]
  end; reflexivity.
Qed.

End TesterRuns.

Section TesterLoop.

Context {L : Type} `{Playwright L} `{PlaywrightPages L}.

Lemma dialled_after_line (t : list Event) (line : list string) :
  dialled (t ++ [ConsoleLog line]) = dialled t.
Proof. tidy_filter. reflexivity. Qed.

Lemma try_endpoints_total (es : list string) (w : World L) :
  exists r w',
    try_endpoints es w = (Normal r, w') /\
    (r = null \/ exists e, In e es /\ r = value e).
Proof.
  revert w. induction es as [| e es IH]; intros w.
  - exists null, w. split; [reflexivity | now left].
  - rewrite try_endpoints_step. cbv zeta.
    destruct (attempt_run e {| remote := remote w;
                               trace := trace w ++ [ConsoleLog ["Testing: " ++ e]] |})
      as ([|] & w2 & -> & _).
    + exists (value e), w2. split; [reflexivity |]. right. exists e. split; [now left | reflexivity].
    + destruct (IH w2) as (r & w' & -> & [-> | (e' & Hin & ->)]).
      * exists null, w'. split; [reflexivity | now left].
      * exists (value e'), w'. split; [reflexivity |]. right. exists e'.
        split; [now right | reflexivity].
Qed.

End TesterLoop.

#[local] Existing Instance Rig.playwright.
#[local] Existing Instance Rig.pages.

(** X13. The tester never throws: whatever the library does -- refuse the
    connection, fail to open a context or a page, fail to close -- it
    returns normally, with [null] or with one of its two endpoints. *)
Theorem tester_never_throws {L : Type} `{Playwright L} `{PlaywrightPages L} (w : World L) :
  exists r w',
    testCDPConnectivity w = (Normal r, w') /\
    (r = null \/
     r = value "ws://localhost:9222/devtools/browser" \/
     r = value "ws://localhost:9222").
Proof.
  unfold testCDPConnectivity, console_log, emit. cbn -[try_endpoints].
  match goal with
  | |- context [try_endpoints endpoints ?x] =>
      destruct (try_endpoints_total endpoints x) as (r & w' & -> & Hr)
  end.
  exists r, w'. split; [reflexivity |].
  destruct Hr as [-> | (e & [<- | [<- | []]] & ->)]; auto.
Qed.

(** X14. When the loop answers [null] it has dialled every endpoint of
    its list, once each and in the order of the list. *)
Theorem null_after_every_endpoint {L : Type} `{Playwright L} `{PlaywrightPages L}
        (es : list string) (w w' : World L) :
  try_endpoints es w = (Normal null, w') ->
  dialled (trace w') = (dialled (trace w) ++ map dial es)%list.
Proof.
  revert w. induction es as [| e es IH]; intros w.
  - cbn. intros E. injection E as <-. now rewrite app_nil_r.
  - rewrite try_endpoints_step. cbv zeta.
    destruct (attempt_run e {| remote := remote w;
                               trace := trace w ++ [ConsoleLog ["Testing: " ++ e]] |})
      as ([|] & w2 & -> & Hd & _); [discriminate |].
    intros E. rewrite (IH _ E), Hd. cbn [trace]. rewrite dialled_after_line.
    cbn [map]. now rewrite <- app_assoc.
Qed.

Lemma null_after_every_endpoint_witness :
  let w := Rig.boot "ws://192.168.1.20:9222" true in
  fst (try_endpoints endpoints w) = Normal null /\
  dialled (trace (snd (try_endpoints endpoints w)))
  = [dial "ws://localhost:9222/devtools/browser"; dial "ws://localhost:9222"].
Proof.
  intros w. split; [reflexivity |].
  exact (null_after_every_endpoint endpoints w (w' := snd (try_endpoints endpoints w)) eq_refl).
Defined.

(** X15. When the loop answers an endpoint, that endpoint is in its list,
    the loop has dialled the endpoints before it and then it, in order,
    and none after it; the connection to it resolved to a browser, and
    the last call of the library's [close] was for that browser and
    resolved, leaving the library in the state the loop returns in. *)
Theorem stops_at_first_success {L : Type} `{Playwright L} `{PlaywrightPages L}
        (es : list string) (e : string) (w w' : World L) :
  try_endpoints es w = (Normal (value e), w') ->
  exists tried later b l0 l1 l2 earlier,
    es = (tried ++ e :: later)%list /\
    dialled (trace w') = (dialled (trace w) ++ map dial (tried ++ [e]))%list /\
    connectOverCDP (probe_args e) l0 = (Normal b, l1) /\
    Browser_close b l2 = (Normal tt, remote w') /\
    closed (trace w') = (earlier ++ [CallClose b])%list.
Proof.
  revert w. induction es as [| e0 es IH]; intros w.
  - discriminate.
  - rewrite try_endpoints_step. cbv zeta.
    destruct (attempt_run e0 {| remote := remote w;
                                trace := trace w ++ [ConsoleLog ["Testing: " ++ e0]] |})
      as ([|] & w2 & -> & Hd & Hok).
    + intros E. injection E as <- <-.
      destruct (Hok eq_refl) as (b & l1 & l2 & Hco & Hcl & Hcd).
      exists [], es, b, (remote w), l1, l2. eexists. split; [reflexivity |].
      split; [| split; [exact Hco | split; [exact Hcl | exact Hcd]]].
      rewrite Hd. cbn [trace]. now rewrite dialled_after_line.
    + intros E.
      destruct (IH _ E)
        as (tried & later & b & l0 & l1 & l2 & earlier & -> & Hd' & Hco & Hcl & Hcd).
      exists (e0 :: tried), later, b, l0, l1, l2, earlier. split; [reflexivity |].
      split; [| split; [exact Hco | split; [exact Hcl | exact Hcd]]].
      rewrite Hd', Hd. cbn [trace]. rewrite dialled_after_line.
      cbn [map app]. now rewrite <- app_assoc.
Qed.

Lemma stops_at_first_success_witness :
  let w := Rig.boot "ws://localhost:9222" true in
  try_endpoints ["ws://localhost:9222/devtools/browser"; "ws://localhost:9222";
                 "ws://127.0.0.1:9222"] w
  = (Normal (value "ws://localhost:9222"),
     snd (try_endpoints ["ws://localhost:9222/devtools/browser"; "ws://localhost:9222";
                         "ws://127.0.0.1:9222"] w)) /\
  exists tried later b l0 l1 l2 earlier,
    ["ws://localhost:9222/devtools/browser"; "ws://localhost:9222"; "ws://127.0.0.1:9222"]
    = (tried ++ "ws://localhost:9222" :: later)%list /\
    dialled (trace (snd (try_endpoints
                           ["ws://localhost:9222/devtools/browser"; "ws://localhost:9222";
                            "ws://127.0.0.1:9222"] w)))
    = (dialled (trace w) ++ map dial (tried ++ ["ws://localhost:9222"]))%list /\
    connectOverCDP (probe_args "ws://localhost:9222") l0 = (Normal b, l1) /\
    Browser_close b l2
    = (Normal tt, remote (snd (try_endpoints
                                 ["ws://localhost:9222/devtools/browser";
                                  "ws://localhost:9222"; "ws://127.0.0.1:9222"] w))) /\
    closed (trace (snd (try_endpoints
                          ["ws://localhost:9222/devtools/browser"; "ws://localhost:9222";
                           "ws://127.0.0.1:9222"] w)))
    = (earlier ++ [CallClose b])%list.
Proof.
  intros w. split; [reflexivity |].
  apply (stops_at_first_success
           ["ws://localhost:9222/devtools/browser"; "ws://localhost:9222";
            "ws://127.0.0.1:9222"] w).
  reflexivity.
Defined.

(** X16. A turn of the loop that connected and then failed leaves the
    browser connected: the library's [close] was not called, unless it
    was that very call that rejected. *)
Theorem failed_probe_keeps_browser_open {L : Type} `{Playwright L} `{PlaywrightPages L}
        (e : string) (w w' : World L) (b : Browser) (l1 : L) :
  connectOverCDP (probe_args e) (remote w) = (Normal b, l1) ->
  attempt e w = (Normal false, w') ->
  closed (trace w') = closed (trace w) \/
  exists l2 l3 v,
    Browser_close b l2 = (Throw v, l3) /\
    closed (trace w') = (closed (trace w) ++ [CallClose b])%list.
Proof.
  destruct w as [l t]. cbn [remote]. intros Hc. run_probe. rewrite Hc. cbn. settle.
  all: intros E; injection E as E; try discriminate; subst w'; cbn [trace].
  all: try (left; tidy_filter; reflexivity).
  all: right; do 3 eexists; split; [eassumption |]; tidy_filter; reflexivity.
Qed.

Lemma failed_probe_keeps_browser_open_witness :
  let w := Rig.boot "ws://localhost:9222" false in
  let w' := snd (attempt "ws://localhost:9222" w) in
  connectOverCDP (probe_args "ws://localhost:9222") (remote w)
  = (Normal (BrowserRef 0),
     {| Rig.accepts := "ws://localhost:9222"; Rig.sandbox := false; Rig.handed := 1 |}) /\
  attempt "ws://localhost:9222" w = (Normal false, w') /\
  closed (trace w') = [] /\
  (closed (trace w') = closed (trace w) \/
   exists l2 l3 v,
     Browser_close (BrowserRef 0) l2 = (Throw v, l3) /\
     closed (trace w') = (closed (trace w) ++ [CallClose (BrowserRef 0)])%list).
Proof.
  intros w w'. split; [reflexivity |]. split; [reflexivity |]. split; [reflexivity |].
  apply (failed_probe_keeps_browser_open "ws://localhost:9222" w (w' := w')
           (b := BrowserRef 0)
           (l1 := {| Rig.accepts := "ws://localhost:9222"; Rig.sandbox := false;
                     Rig.handed := 1 |}));
    reflexivity.
Defined.
